(** * Access control of the investor-statement pages

    Shallow embedding of the two server-rendered pages

      - [InvestorStatementsPage]
        (src/app/(dashboard)/dashboard/investor-statements/page.tsx)
      - [InvestorStatementsAdminPage]  (the admin counterpart)

    Both are [async] functions that talk to an authentication provider and
    to a row-query client, and that leave early through [redirect].  They
    are embedded in a small monad that reads the data store, records every
    call issued, and stops at the first [redirect] (or [TypeError]). *)

From Stdlib Require Import String ZArith List Bool Lia.
From Stdlib Require Import Ascii DecimalString.
Import ListNotations.
Local Open Scope string_scope.
Local Open Scope list_scope.

(** ** JavaScript values *)

Module JS.

(** The values a projected column can hold.  Numbers coming from integer
    columns are integers. *)
Inductive value : Type :=
| Undefined
| Null
| Bool (b : bool)
| Num (n : Z)
| Str (s : string).

(** [a === b] *)
Definition strict_eq (a b : value) : bool :=
  match a, b with
  | Undefined, Undefined => true
  | Null, Null => true
  | Bool x, Bool y => Bool.eqb x y
  | Num x, Num y => Z.eqb x y
  | Str x, Str y => String.eqb x y
  | _, _ => false
  end.

(** [o?.f]: [undefined] when [o] is [null]. *)
Definition opt_chain {R : Type} (o : option R) (f : R -> value) : value :=
  match o with
  | Some r => f r
  | None => Undefined
  end.

(** [!x] on a nullable object. *)
Definition not_ {R : Type} (o : option R) : bool :=
  match o with
  | Some _ => false
  | None => true
  end.

End JS.

Import JS.
Notation "o ?. f" := (opt_chain o f) (at level 9, f at level 9, no associativity).

(** ** Rows, the data store and the calls made to it *)

(** [supabase.auth.getUser()] yields [{ data: { user } }]; only [user.id]
    is read. *)
Record User : Type := { user_id : string }.

(** Projection ["id, contact_types_id"] of table [contact]. *)
Record contact_row : Type := { contact_id : value; contact_types_id : value }.

(** Projection ["role"] of table [auth_user_profiles]. *)
Record profile_row : Type := { role : value }.

(** Projection ["org_id"] of table [user_clerk_org_members]. *)
Record org_member_row : Type := { org_id : value }.

(** What the collaborators answer during one request.  A [.single()]
    query gives [data = null] when no row matches; a list query gives an
    array, or [null] when the query fails. *)
Record backend : Type := {
  auth_getUser : option User;
  contact : string -> option contact_row;
  auth_user_profiles : string -> option profile_row;
  user_clerk_org_members : string -> option (list org_member_row)
}.

Inductive event : Type :=
| GetUser
| Select (table columns eq_column eq_value : string) (single : bool).

(** ** The request monad *)

Inductive outcome (A : Type) : Type :=
| Returned (a : A)
| Redirect (path : string)
| TypeError.
Arguments Returned {A} a.
Arguments Redirect {A} path.
Arguments TypeError {A}.

Definition M (A : Type) : Type := backend -> list event -> outcome A * list event.

Definition ret {A} (a : A) : M A := fun _ t => (Returned a, t).

Definition bind {A B} (m : M A) (k : A -> M B) : M B :=
  fun b t =>
    match m b t with
    | (Returned a, t') => k a b t'
    | (Redirect p, t') => (Redirect p, t')
    | (TypeError, t') => (TypeError, t')
    end.

Notation "x <- m ;; k" := (bind m (fun x => k))
  (at level 61, m at next level, right associativity).
Notation "m ;;; k" := (bind m (fun _ => k))
  (at level 61, right associativity).

(** [redirect(path)] of next/navigation never returns to its caller. *)
Definition redirect {A} (path : string) : M A := fun _ t => (Redirect path, t).

(** [if (c) { body }] *)
Definition when_ (c : bool) (body : M unit) : M unit :=
  if c then body else ret tt.

(** [await supabase.auth.getUser()] *)
Definition getUser : M (option User) :=
  fun b t => (Returned (auth_getUser b), t ++ [GetUser]).

(** [user.id]; reading a property of [null] is a [TypeError]. *)
Definition dot_id (user : option User) : M string :=
  match user with
  | Some u => ret (user_id u)
  | None => fun _ t => (TypeError, t)
  end.

Definition select_contact (clerk_id : string) : M (option contact_row) :=
  fun b t =>
    (Returned (contact b clerk_id),
     t ++ [Select "contact" "id, contact_types_id" "clerk_id" clerk_id true]).

Definition select_profile (id : string) : M (option profile_row) :=
  fun b t =>
    (Returned (auth_user_profiles b id),
     t ++ [Select "auth_user_profiles" "role" "id" id true]).

Definition select_org_members (uid : string) : M (option (list org_member_row)) :=
  fun b t =>
    (Returned (user_clerk_org_members b uid),
     t ++ [Select "user_clerk_org_members" "org_id" "user_id" uid false]).

Definition run {A} (m : M A) (b : backend) : outcome A * list event := m b [].

(** ** What the pages render *)

(** Only the data-bearing components are kept; headings and wrappers are
    static.  [<InvestorStatementsList />] without the property is
    [InvestorStatementsList Undefined]. *)
Inductive component : Type :=
| InvestorStatementsList (investorId : value)
| InvestorStatementsAdmin.

Definition view : Type := list component.

(** [{cond && ( children )}] *)
Definition jsx_and (cond : bool) (children : view) : view :=
  if cond then children else [].

(** [userOrgs && userOrgs.length > 0] *)
Definition has_orgs (userOrgs : option (list org_member_row)) : bool :=
  match userOrgs with
  | Some l => (0 <? length l)%nat
  | None => false
  end.

(** [!userOrgs || userOrgs.length === 0 || isAdmin] *)
Definition single_view (userOrgs : option (list org_member_row)) (isAdmin : bool) : bool :=
  not_ userOrgs
  || match userOrgs with Some l => (length l =? 0)%nat | None => false end
  || isAdmin.

(** ** The pages *)

Definition InvestorStatementsPage : M view :=
  user <- getUser ;;
  when_ (not_ user) (redirect "/sign-in") ;;;
  uid <- dot_id user ;;
  contactData <- select_contact uid ;;
  let isInvestor := strict_eq (contactData ?. contact_types_id) (Num 12) in
  uid <- dot_id user ;;
  userData <- select_profile uid ;;
  let isAdmin := strict_eq (userData ?. role) (Str "admin") in
  when_ (negb isInvestor && negb isAdmin) (redirect "/dashboard") ;;;
  userOrgs <-
    (if isInvestor
     then uid <- dot_id user ;;
          orgsData <- select_org_members uid ;;
          ret orgsData
     else ret None) ;;
  ret (jsx_and (has_orgs userOrgs)
         [ InvestorStatementsList (contactData ?. contact_id);
           InvestorStatementsList Undefined ]
       ++ jsx_and (single_view userOrgs isAdmin)
         [ InvestorStatementsList
             (if isInvestor then contactData ?. contact_id else Undefined) ]).

Definition InvestorStatementsAdminPage : M view :=
  user <- getUser ;;
  when_ (not_ user) (redirect "/sign-in") ;;;
  uid <- dot_id user ;;
  userData <- select_profile uid ;;
  let isAdmin := strict_eq (userData ?. role) (Str "admin") in
  when_ (negb isAdmin) (redirect "/dashboard") ;;;
  ret [ InvestorStatementsAdmin ].

(** ** The resolved principal

    The expressions the pages evaluate on the rows they fetched, as
    functions of the data store and the signed-in user. *)

(** [userData?.role] *)
Definition role_of (b : backend) (u : User) : value :=
  (auth_user_profiles b (user_id u)) ?. role.

(** [contactData?.contact_types_id] *)
Definition contact_type_id_of (b : backend) (u : User) : value :=
  (contact b (user_id u)) ?. contact_types_id.

(** [contactData?.id] *)
Definition contact_id_of (b : backend) (u : User) : value :=
  (contact b (user_id u)) ?. contact_id.

(** [orgsData] *)
Definition memberships_of (b : backend) (u : User) : option (list org_member_row) :=
  user_clerk_org_members b (user_id u).

Definition membership_count (b : backend) (u : User) : nat :=
  match memberships_of b u with
  | Some l => length l
  | None => 0
  end.

Definition is_investor (b : backend) (u : User) : bool :=
  strict_eq (contact_type_id_of b u) (Num 12).

Definition is_admin (b : backend) (u : User) : bool :=
  strict_eq (role_of b u) (Str "admin").

(** The two control outputs of section 7 of the specification. *)
Definition SignIn {A} : outcome A := Redirect "/sign-in".
Definition Denied {A} : outcome A := Redirect "/dashboard".

(** The calls, as they appear in the trace. *)
Definition q_contact (u : User) : event :=
  Select "contact" "id, contact_types_id" "clerk_id" (user_id u) true.
Definition q_profile (u : User) : event :=
  Select "auth_user_profiles" "role" "id" (user_id u) true.
Definition q_org_members (u : User) : event :=
  Select "user_clerk_org_members" "org_id" "user_id" (user_id u) false.

Definition is_lookup (e : event) : bool :=
  match e with
  | GetUser => false
  | Select _ _ _ _ _ => true
  end.

(** What [InvestorStatementsPage] returns once neither redirect fired. *)
Definition investor_view (b : backend) (u : User) : view :=
  if is_investor b u then
    jsx_and (has_orgs (memberships_of b u))
      [ InvestorStatementsList (contact_id_of b u);
        InvestorStatementsList Undefined ]
    ++ jsx_and (single_view (memberships_of b u) (is_admin b u))
      [ InvestorStatementsList (contact_id_of b u) ]
  else
    [ InvestorStatementsList Undefined ].

(** ** Sample requests *)

Definition alice : User := {| user_id := "user_2aXk" |}.

(** A data store that knows one user id. *)
Definition store_for (session : option User) (key : string)
    (c : option contact_row) (p : option profile_row)
    (o : option (list org_member_row)) : backend :=
  {| auth_getUser := session;
     contact := fun k => if String.eqb k key then c else None;
     auth_user_profiles := fun k => if String.eqb k key then p else None;
     user_clerk_org_members := fun k => if String.eqb k key then o else Some [] |}.

Definition investor_row : contact_row :=
  {| contact_id := Num 41; contact_types_id := Num 12 |}.
Definition borrower_row : contact_row :=
  {| contact_id := Num 3; contact_types_id := Num 7 |}.
Definition admin_profile : profile_row := {| role := Str "admin" |}.
Definition standard_profile : profile_row := {| role := Str "standard" |}.
Definition two_orgs : list org_member_row :=
  [ {| org_id := Str "org_A" |}; {| org_id := Str "org_B" |} ].

Definition b_anonymous : backend :=
  store_for None "user_2aXk" (Some investor_row) (Some admin_profile) (Some two_orgs).
Definition b_borrower : backend :=
  store_for (Some alice) "user_2aXk" (Some borrower_row) None (Some []).
Definition b_admin : backend :=
  store_for (Some alice) "user_2aXk" None (Some admin_profile) (Some []).
Definition b_investor : backend :=
  store_for (Some alice) "user_2aXk" (Some investor_row) None (Some []).
Definition b_investor_orgs : backend :=
  store_for (Some alice) "user_2aXk" (Some investor_row) (Some standard_profile)
    (Some two_orgs).
Definition b_admin_investor : backend :=
  store_for (Some alice) "user_2aXk" (Some investor_row) (Some admin_profile) (Some []).
Definition b_admin_investor_orgs : backend :=
  store_for (Some alice) "user_2aXk" (Some investor_row) (Some admin_profile)
    (Some two_orgs).

Definition bob : User := {| user_id := "user_9QpL" |}.
Definition b_investor_orgs_bob : backend :=
  store_for (Some bob) "user_9QpL" (Some investor_row) (Some standard_profile)
    (Some two_orgs).

(** ** Vocabulary for the further properties *)

(** The table a call reads, if it reads one. *)
Definition table_of (e : event) : option string :=
  match e with
  | GetUser => None
  | Select table _ _ _ _ => Some table
  end.

(** The value a call filters on, if it filters. *)
Definition key_of (e : event) : option string :=
  match e with
  | GetUser => None
  | Select _ _ _ eq_value _ => Some eq_value
  end.

Definition is_list (c : component) : bool :=
  match c with
  | InvestorStatementsList _ => true
  | InvestorStatementsAdmin => false
  end.

Definition one_org : list org_member_row := [ {| org_id := Str "org_Z" |} ].
Definition b_investor_one_org : backend :=
  store_for (Some bob) "user_9QpL" (Some investor_row) (Some standard_profile)
    (Some one_org).

Definition b_investor_orgs_no_profile : backend :=
  store_for (Some alice) "user_2aXk" (Some investor_row) None (Some two_orgs).

(** [no_wider o1 o2]: outcome [o1] renders nothing that outcome [o2] does
    not render.  A redirect renders nothing. *)
Definition no_wider (o1 o2 : outcome view) : Prop :=
  match o1, o2 with
  | Redirect _, _ => True
  | Returned v1, Returned v2 => incl v1 v2
  | _, _ => False
  end.

(** ** The integration script (test-supabase-integration.js)

    A Node script: top-level statements, four test functions and
    [runTests].  Its collaborators are the process environment, the
    Supabase client factory, the answers of the row queries and the
    validation module it tries to load; they make up the [world].  The
    script is embedded as the chronological list of its effects.  Strings
    are byte strings: [substring] agrees with the JavaScript method on the
    ASCII values that keys and URLs are made of. *)

(** [await supabase.from(t).select(c).limit(n)]: the promise resolves to
    [{ data, error }] or rejects.  Of [data] only [length] is read; of
    [error] only [message]. *)
Inductive response : Type :=
| Resolved (data : option nat) (error : option string)
| Rejected (message : string).

(** How far the body of [testValidation] gets: [require] of the validation
    module may throw, and so may each of the two validators. *)
Inductive validation_run : Type :=
| RequireThrows
| DealValidationThrows
| DocumentValidationThrows
| ValidationPasses.

(** [createClient] answers [None] when it returns a client and [Some m]
    when it throws an error with message [m]. *)
Record world : Type := {
  process_env : string -> option string;
  createClient : option string -> option string -> option string;
  from_select_limit : string -> string -> nat -> response;
  validation : validation_run
}.

Inductive effect : Type :=
| Log (line : string)
| LogError (message : string)
| Query (table columns : string) (limit : nat)
| Exit (code : nat).

(** Truthiness of [process.env[name]]: [undefined] and the empty string are
    falsy. *)
Definition truthy (v : option string) : bool :=
  match v with
  | Some s => negb (String.eqb s "")
  | None => false
  end.

Definition nl : string := String (Ascii.ascii_of_nat 10) "".

Infix "+++" := String.append (right associativity, at level 60).

(** [console.log(a, b, ...)] on strings: the arguments separated by one
    space. *)
Definition console_log (args : list string) : effect :=
  Log (String.concat " " args).

(** A number inside a template literal. *)
Definition number_to_string (n : nat) : string :=
  NilEmpty.string_of_uint (Nat.to_uint n).

(** [s.includes(sub)] *)
Fixpoint includes (s sub : string) : bool :=
  if String.prefix sub s then true
  else match s with
       | EmptyString => false
       | String _ s' => includes s' sub
       end.

Definition SUPABASE_URL (w : world) : option string :=
  process_env w "NEXT_PUBLIC_SUPABASE_URL".
Definition SUPABASE_ANON_KEY (w : world) : option string :=
  process_env w "NEXT_PUBLIC_SUPABASE_ANON_KEY".

Definition missing_variables : string :=
  "Missing environment variables: NEXT_PUBLIC_SUPABASE_URL or NEXT_PUBLIC_SUPABASE_ANON_KEY".

(** The [catch] block of test 1. *)
Definition client_creation_failed (message : string) : list effect :=
  [ console_log ["   ❌ Failed to create Supabase client:"; message]; Exit 1 ].

(** Test 1, the [try]/[catch] at top level; the flag tells whether the
    script goes on.  The cut of the key is taken on bytes: exact for an
    ASCII key. *)
Definition test_client_creation (w : world) : list effect * bool :=
  match SUPABASE_URL w, SUPABASE_ANON_KEY w with
  | Some url, Some key =>
      if String.eqb url "" || String.eqb key ""
      then (client_creation_failed missing_variables, false)
      else
        match createClient w (Some url) (Some key) with
        | Some message => (client_creation_failed message, false)
        | None =>
            ([ Log "   ✅ Supabase client created successfully";
               Log ("   📡 URL: " +++ url);
               Log ("   🔑 Key: " +++ substring 0 20 key +++ "...") ],
             true)
        end
  | _, _ => (client_creation_failed missing_variables, false)
  end.

Definition testConnection (w : world) : list effect :=
  match createClient w (SUPABASE_URL w) (SUPABASE_ANON_KEY w) with
  | Some message => [ console_log ["   ❌ Connection error:"; message] ]
  | None =>
      Query "contact_types" "id" 1 ::
      match from_select_limit w "contact_types" "id" 1 with
      | Rejected message => [ console_log ["   ❌ Connection error:"; message] ]
      | Resolved data (Some message) =>
          [ console_log ["   ⚠️  Database connection test failed:"; message];
            Log "   💡 This might be due to RLS policies (which is expected)" ]
      | Resolved data None =>
          [ Log "   ✅ Database connection successful";
            Log ("   📊 Query returned "
                 +++ number_to_string (match data with Some n => n | None => 0 end)
                 +++ " rows") ]
      end
  end.

Definition criticalTables : list string :=
  [ "user_profile"; "contact"; "deal"; "document_files"; "bs_investor_deals";
    "bs_investor_statements"; "bs_investor_distributions" ].

(** The line one iteration of the loop of [testTableStructures] prints. *)
Definition table_report (w : world) (table : string) : effect :=
  match from_select_limit w table "*" 0 with
  | Rejected message =>
      console_log ["   ❌ Table '" +++ table +++ "' failed:"; message]
  | Resolved _ (Some message) =>
      if includes message "permission denied" || includes message "RLS"
      then Log ("   ✅ Table '" +++ table +++ "' exists (RLS protected)")
      else console_log ["   ❌ Table '" +++ table +++ "' error:"; message]
  | Resolved _ None =>
      Log ("   ✅ Table '" +++ table +++ "' accessible")
  end.

(** [createClient] is called outside the [try]: when it throws, the
    function rejects with that message. *)
Definition testTableStructures (w : world) : list effect * option string :=
  match createClient w (SUPABASE_URL w) (SUPABASE_ANON_KEY w) with
  | Some message => ([], Some message)
  | None =>
      (flat_map (fun table => [ Query table "*" 0; table_report w table ])
         criticalTables,
       None)
  end.

Definition validation_skipped : list effect :=
  [ Log "   ⚠️  Validation test skipped (likely due to TypeScript import)";
    Log "   💡 This is expected in a Node.js environment" ].

Definition testValidation (w : world) : list effect :=
  match validation w with
  | RequireThrows | DealValidationThrows => validation_skipped
  | DocumentValidationThrows =>
      Log "   ✅ Deal validation working" :: validation_skipped
  | ValidationPasses =>
      [ Log "   ✅ Deal validation working";
        Log "   ✅ Document validation working" ]
  end.

Definition requiredEnvVars : list string :=
  [ "NEXT_PUBLIC_SUPABASE_URL"; "NEXT_PUBLIC_SUPABASE_ANON_KEY";
    "CLERK_SECRET_KEY"; "NEXT_PUBLIC_CLERK_PUBLISHABLE_KEY" ].

Definition optionalEnvVars : list string :=
  [ "SUPABASE_SERVICE_ROLE_KEY"; "STORAGE_SETUP_API_KEY" ].

(** One turn of the first loop of [checkEnvironment].  The cut
    [value.substring(0, 10)] is taken on bytes: exact for ASCII values. *)
Definition required_report (w : world) (envVar : string) : effect :=
  match process_env w envVar with
  | Some value =>
      if String.eqb value ""
      then Log ("   ❌ " +++ envVar +++ ": Missing")
      else Log ("   ✅ " +++ envVar +++ ": Set (" +++ substring 0 10 value +++ "...)")
  | None => Log ("   ❌ " +++ envVar +++ ": Missing")
  end.

Definition optional_report (w : world) (envVar : string) : effect :=
  if truthy (process_env w envVar)
  then Log ("   ✅ " +++ envVar +++ ": Set")
  else Log ("   ⚠️  " +++ envVar +++ ": Not set").

Definition checkEnvironment (w : world) : list effect :=
  Log "   Required variables:"
  :: map (required_report w) requiredEnvVars
  ++ Log (nl +++ "   Optional variables:")
  :: map (optional_report w) optionalEnvVars.

Definition closing_lines : list effect :=
  [ Log (nl +++ "🎉 Supabase integration tests completed!");
    Log (nl +++ "📋 Next steps to fully test the app:");
    Log "   1. Run: npm run build";
    Log "   2. Run: npm run dev";
    Log "   3. Test authentication flow";
    Log "   4. Test creating/reading deals and documents";
    Log "   5. Check browser console for any runtime errors" ].

(** [runTests().catch(console.error)] *)
Definition runTests (w : world) : list effect :=
  testConnection w
  ++ match testTableStructures w with
     | (effects, Some message) => effects ++ [ LogError message ]
     | (effects, None) =>
         effects ++ testValidation w ++ checkEnvironment w ++ closing_lines
     end.

Definition section_headers : list effect :=
  [ Log (nl +++ "2️⃣  Testing database connection...");
    Log (nl +++ "3️⃣  Validating key table structures...");
    Log (nl +++ "4️⃣  Testing validation functions...");
    Log (nl +++ "5️⃣  Environment configuration check...") ].

(** The whole script, top to bottom.  [process.exit(1)] ends it. *)
Definition script (w : world) : list effect :=
  Log ("🧪 Starting Supabase Integration Tests..." +++ nl)
  :: Log "1️⃣  Testing client creation..."
  :: match test_client_creation w with
     | (effects, false) => effects
     | (effects, true) => effects ++ section_headers ++ runTests w
     end.

Definition is_query (e : effect) : bool :=
  match e with
  | Query _ _ _ => true
  | _ => false
  end.

Definition is_log (e : effect) : bool :=
  match e with
  | Log _ => true
  | _ => false
  end.

(** A line that reports success starts with the check mark. *)
Definition reports_ok (e : effect) : bool :=
  match e with
  | Log line => String.prefix "   ✅" line
  | _ => false
  end.

(** What [checkEnvironment] shows of a required variable. *)
Definition shown_of_required (v : option string) : option string :=
  match v with
  | Some value => if String.eqb value "" then None else Some (substring 0 10 value)
  | None => None
  end.

(** Sample worlds. *)
Definition env_of (l : list (string * string)) (name : string) : option string :=
  match find (fun kv => String.eqb (fst kv) name) l with
  | Some kv => Some (snd kv)
  | None => None
  end.

Definition w_rls : world :=
  {| process_env :=
       env_of [ ("NEXT_PUBLIC_SUPABASE_URL", "https://demo.supabase.co");
                ("NEXT_PUBLIC_SUPABASE_ANON_KEY", "eyJhbGciOiJIUzI1NiIsInR5cCI6IkpXVCJ9");
                ("CLERK_SECRET_KEY", "sk_test_0123456789abcdef");
                ("STORAGE_SETUP_API_KEY", "storage-key-1") ];
     createClient := fun _ _ => None;
     from_select_limit := fun table _ _ =>
       if String.eqb table "deal"
       then Resolved None (Some "new row violates RLS policy")
       else if String.eqb table "contact"
       then Resolved None (Some "relation does not exist")
       else Resolved (Some 0) None;
     validation := RequireThrows |}.

Definition w_rls_other_secrets : world :=
  {| process_env :=
       env_of [ ("NEXT_PUBLIC_SUPABASE_URL", "https://demo.supabase.co");
                ("NEXT_PUBLIC_SUPABASE_ANON_KEY", "eyJhbGciOiJIUzI1NiIsImtpZCI6Ik9USEVSIn0");
                ("CLERK_SECRET_KEY", "sk_test_01ZZZZ");
                ("STORAGE_SETUP_API_KEY", "another-key") ];
     createClient := fun _ _ => None;
     from_select_limit := fun _ _ _ => Rejected "fetch failed";
     validation := ValidationPasses |}.

Definition w_empty_key : world :=
  {| process_env :=
       env_of [ ("NEXT_PUBLIC_SUPABASE_URL", "https://demo.supabase.co");
                ("NEXT_PUBLIC_SUPABASE_ANON_KEY", "") ];
     createClient := fun _ _ => None;
     from_select_limit := fun _ _ _ => Resolved (Some 0) None;
     validation := ValidationPasses |}.

(** Values made of ASCII characters only.  On these the byte-wise
    [substring] is the script's [value.substring]. *)
Definition ascii_only (s : string) : bool :=
  forallb (fun c => (Ascii.nat_of_ascii c <? 128)%nat) (list_ascii_of_string s).

(** The variables whose values the script prints (in part) are ASCII. *)
Definition printed_values_ascii (w : world) : Prop :=
  forall x value,
    In x requiredEnvVars -> process_env w x = Some value ->
    ascii_only value = true.

(** What the script shows of a variable printed in full, and of one cut to
    [n] characters: nothing distinguishes the empty string from [undefined]. *)
Definition shown_in_full (v : option string) : option string :=
  if truthy v then v else None.

Definition shown_prefix (n : nat) (v : option string) : option string :=
  match v with
  | Some value => if String.eqb value "" then None else Some (substring 0 n value)
  | None => None
  end.

Definition w_rls_unset_vs_empty : world :=
  {| process_env :=
       env_of [ ("NEXT_PUBLIC_SUPABASE_URL", "https://demo.supabase.co");
                ("NEXT_PUBLIC_SUPABASE_ANON_KEY", "eyJhbGciOiJIUzI1NiIsImtpZCI6Ik9USEVSIn0");
                ("CLERK_SECRET_KEY", "sk_test_01ZZZZ");
                ("NEXT_PUBLIC_CLERK_PUBLISHABLE_KEY", "");
                ("SUPABASE_SERVICE_ROLE_KEY", "");
                ("STORAGE_SETUP_API_KEY", "another-key") ];
     createClient := fun _ _ => None;
     from_select_limit := from_select_limit w_rls;
     validation := RequireThrows |}.

Definition w_unset_url : world :=
  {| process_env :=
       env_of [ ("NEXT_PUBLIC_SUPABASE_ANON_KEY", "eyJhbGciOiJIUzI1NiIsInR5cCI6IkpXVCJ9") ];
     createClient := fun _ _ => Some "supabaseUrl is required.";
     from_select_limit := fun _ _ _ => Rejected "fetch failed";
     validation := ValidationPasses |}.

Definition w_empty_url : world :=
  {| process_env :=
       env_of [ ("NEXT_PUBLIC_SUPABASE_URL", "");
                ("NEXT_PUBLIC_SUPABASE_ANON_KEY", "eyJhbGciOiJIUzI1NiIsInR5cCI6IkpXVCJ9") ];
     createClient := fun _ _ => Some "Invalid URL";
     from_select_limit := fun _ _ _ => Rejected "fetch failed";
     validation := ValidationPasses |}.

(** ** Basic facts *)

Lemma strict_eq_true_iff (a b : value) : strict_eq a b = true <-> a = b.
Proof.
  destruct a, b; simpl; split; try congruence; try reflexivity.
  - intros H. apply Bool.eqb_prop in H. now subst.
  - intros H. injection H as ->. apply Bool.eqb_reflx.
  - intros H. apply Z.eqb_eq in H. now subst.
  - intros H. injection H as ->. apply Z.eqb_refl.
  - intros H. apply String.eqb_eq in H. now subst.
  - intros H. injection H as ->. apply String.eqb_refl.
Qed.

Lemma strict_eq_false_iff (a b : value) : strict_eq a b = false <-> a <> b.
Proof.
  rewrite <- strict_eq_true_iff. destruct (strict_eq a b); split; congruence.
Qed.

Lemma is_admin_true_iff b u : is_admin b u = true <-> role_of b u = Str "admin".
Proof. apply strict_eq_true_iff. Qed.

Lemma is_admin_false_iff b u : is_admin b u = false <-> role_of b u <> Str "admin".
Proof. apply strict_eq_false_iff. Qed.

Lemma is_investor_true_iff b u :
  is_investor b u = true <-> contact_type_id_of b u = Num 12.
Proof. apply strict_eq_true_iff. Qed.

Lemma is_investor_false_iff b u :
  is_investor b u = false <-> contact_type_id_of b u <> Num 12.
Proof. apply strict_eq_false_iff. Qed.

(** An investor has a contact row: [contactData?.contact_types_id] is
    [undefined] without one. *)
Lemma is_investor_row b u :
  is_investor b u = true <->
  exists row, contact b (user_id u) = Some row /\ contact_types_id row = Num 12.
Proof.
  rewrite is_investor_true_iff. unfold contact_type_id_of.
  destruct (contact b (user_id u)) as [row|]; simpl; split.
  - intros H. now exists row.
  - intros (row' & [= <-] & H). exact H.
  - discriminate.
  - intros (row' & [=] & _).
Qed.

Lemma has_orgs_count b u :
  has_orgs (memberships_of b u) = negb (membership_count b u =? 0)%nat.
Proof.
  unfold has_orgs, membership_count.
  destruct (memberships_of b u) as [l|]; [destruct l|]; reflexivity.
Qed.

Lemma single_view_count b u isAdmin :
  single_view (memberships_of b u) isAdmin =
  (membership_count b u =? 0)%nat || isAdmin.
Proof.
  unfold single_view, membership_count.
  destruct (memberships_of b u) as [l|]; [destruct l|]; reflexivity.
Qed.

(** ** Closed forms of the two pages *)

Ltac run_page :=
  unfold run, InvestorStatementsPage, InvestorStatementsAdminPage,
    bind, getUser; simpl.

Lemma InvestorStatementsPage_no_session b :
  auth_getUser b = None ->
  run InvestorStatementsPage b = (SignIn, [GetUser]).
Proof. intros H. run_page. rewrite H. reflexivity. Qed.

Lemma InvestorStatementsAdminPage_no_session b :
  auth_getUser b = None ->
  run InvestorStatementsAdminPage b = (SignIn, [GetUser]).
Proof. intros H. run_page. rewrite H. reflexivity. Qed.

Lemma InvestorStatementsPage_session b u :
  auth_getUser b = Some u ->
  run InvestorStatementsPage b =
  if negb (is_investor b u) && negb (is_admin b u)
  then (Denied, [GetUser; q_contact u; q_profile u])
  else (Returned (investor_view b u),
        [GetUser; q_contact u; q_profile u]
        ++ (if is_investor b u then [q_org_members u] else [])).
Proof.
  intros H. run_page. rewrite H. simpl.
  unfold investor_view, is_investor, is_admin, contact_type_id_of, role_of,
    contact_id_of, memberships_of.
  destruct (strict_eq ((contact b (user_id u)) ?. contact_types_id) (Num 12));
    destruct (strict_eq ((auth_user_profiles b (user_id u)) ?. role) (Str "admin"));
    reflexivity.
Qed.

Lemma InvestorStatementsAdminPage_session b u :
  auth_getUser b = Some u ->
  run InvestorStatementsAdminPage b =
  if is_admin b u
  then (Returned [InvestorStatementsAdmin], [GetUser; q_profile u])
  else (Denied, [GetUser; q_profile u]).
Proof.
  intros H. run_page. rewrite H. simpl.
  unfold is_admin, role_of.
  destruct (strict_eq ((auth_user_profiles b (user_id u)) ?. role) (Str "admin"));
    reflexivity.
Qed.

(** Neither page can end in a [TypeError], signed in or not. *)
Lemma pages_raise_no_error b :
  fst (run InvestorStatementsPage b) <> TypeError /\
  fst (run InvestorStatementsAdminPage b) <> TypeError.
Proof.
  destruct (auth_getUser b) as [u|] eqn:Hu.
  - rewrite (InvestorStatementsPage_session b u Hu),
      (InvestorStatementsAdminPage_session b u Hu).
    destruct (is_investor b u), (is_admin b u); split; discriminate.
  - rewrite (InvestorStatementsPage_no_session b Hu),
      (InvestorStatementsAdminPage_no_session b Hu).
    split; discriminate.
Qed.

Lemma absent_contact_not_investor b u :
  contact b (user_id u) = None \/ contact_type_id_of b u = Null
  \/ contact_type_id_of b u = Undefined ->
  is_investor b u = false.
Proof.
  unfold is_investor, contact_type_id_of.
  intros [H | [H | H]]; rewrite H; reflexivity.
Qed.

Lemma absent_profile_not_admin b u :
  auth_user_profiles b (user_id u) = None \/ role_of b u = Null
  \/ role_of b u = Undefined ->
  is_admin b u = false.
Proof.
  unfold is_admin, role_of.
  intros [H | [H | H]]; rewrite H; reflexivity.
Qed.

(** ** The claims *)

(** C1. A signed-in principal whose role is not ["admin"] and whose contact
    type is not 12 (absent rows and null fields included) is denied by the
    investor page: it redirects to [/dashboard] and renders no list. *)
Theorem investor_page_denies_outsiders b u :
  auth_getUser b = Some u ->
  role_of b u <> Str "admin" ->
  contact_type_id_of b u <> Num 12 ->
  fst (run InvestorStatementsPage b) = Denied.
Proof.
  intros Hu Hr Hc.
  rewrite (InvestorStatementsPage_session b u Hu).
  apply is_admin_false_iff in Hr. apply is_investor_false_iff in Hc.
  rewrite Hr, Hc. reflexivity.
Qed.

Lemma investor_page_denies_outsiders_witness :
  role_of b_borrower alice = Undefined /\
  contact_type_id_of b_borrower alice = Num 7 /\
  fst (run InvestorStatementsPage b_borrower) = Redirect "/dashboard".
Proof.
  split; [reflexivity | split; [reflexivity |]].
  apply (investor_page_denies_outsiders b_borrower alice);
    [reflexivity | vm_compute; discriminate | vm_compute; discriminate].
Defined.

(** C2. The admin page renders exactly when the principal's role is
    ["admin"]; every other signed-in principal, the one without a profile
    row included, is redirected to [/dashboard]. *)
Theorem admin_page_allows_iff_admin b u :
  auth_getUser b = Some u ->
  (fst (run InvestorStatementsAdminPage b) = Returned [InvestorStatementsAdmin]
   <-> role_of b u = Str "admin")
  /\ (role_of b u <> Str "admin" ->
      fst (run InvestorStatementsAdminPage b) = Denied)
  /\ (auth_user_profiles b (user_id u) = None ->
      fst (run InvestorStatementsAdminPage b) = Denied).
Proof.
  intros Hu. rewrite (InvestorStatementsAdminPage_session b u Hu).
  assert (Hnone : auth_user_profiles b (user_id u) = None -> is_admin b u = false).
  { intros H. unfold is_admin, role_of. rewrite H. reflexivity. }
  destruct (is_admin b u) eqn:E; simpl.
  - apply is_admin_true_iff in E. repeat split; try tauto.
    intros H. specialize (Hnone H). discriminate.
  - apply is_admin_false_iff in E. repeat split; try tauto; discriminate.
Qed.

Lemma admin_page_allows_iff_admin_witness :
  fst (run InvestorStatementsAdminPage b_admin) = Returned [InvestorStatementsAdmin]
  /\ fst (run InvestorStatementsAdminPage b_investor) = Redirect "/dashboard".
Proof.
  split.
  - apply (proj1 (admin_page_allows_iff_admin b_admin alice eq_refl)). reflexivity.
  - apply (proj2 (proj2 (admin_page_allows_iff_admin b_investor alice eq_refl))).
    reflexivity.
Defined.

(** C3. An investor (contact type 12) with at least one organization
    membership gets the individual list, filtered by the id of the contact
    row, followed by the organizational list, which receives no filter at
    all; org ids never reach a list.  (An investor who is also an admin gets
    the individual list once more after these two.) *)
Theorem investor_with_orgs_combined_scope b u :
  auth_getUser b = Some u ->
  contact_type_id_of b u = Num 12 ->
  (0 < membership_count b u)%nat ->
  exists row,
    contact b (user_id u) = Some row /\
    fst (run InvestorStatementsPage b) =
    Returned ([ InvestorStatementsList (contact_id row);
                InvestorStatementsList Undefined ]
              ++ (if is_admin b u
                  then [ InvestorStatementsList (contact_id row) ]
                  else [])).
Proof.
  intros Hu Hc Hm.
  apply is_investor_true_iff in Hc.
  destruct (proj1 (is_investor_row b u) Hc) as (row & Hrow & _).
  exists row. split; [exact Hrow|].
  rewrite (InvestorStatementsPage_session b u Hu), Hc. simpl.
  unfold investor_view. rewrite Hc, has_orgs_count, single_view_count.
  assert (Hz : (membership_count b u =? 0)%nat = false) by (apply Nat.eqb_neq; lia).
  rewrite Hz. unfold contact_id_of. rewrite Hrow. simpl.
  destruct (is_admin b u); reflexivity.
Qed.

Lemma investor_with_orgs_combined_scope_witness :
  exists row,
    contact b_investor_orgs "user_2aXk" = Some row /\
    fst (run InvestorStatementsPage b_investor_orgs) =
    Returned ([ InvestorStatementsList (contact_id row);
                InvestorStatementsList Undefined ] ++ []).
Proof.
  apply (investor_with_orgs_combined_scope b_investor_orgs alice);
    [reflexivity | reflexivity | vm_compute; lia].
Defined.

(** C4 (as stated, refuted).  An admin who is also an investor and has no
    organization membership does not get the unrestricted list: the single
    list is filtered by the contact id. *)
Lemma admin_precedence_counterexample :
  auth_getUser b_admin_investor = Some alice /\
  role_of b_admin_investor alice = Str "admin" /\
  contact_type_id_of b_admin_investor alice = Num 12 /\
  membership_count b_admin_investor alice = 0%nat /\
  fst (run InvestorStatementsPage b_admin_investor)
    = Returned [ InvestorStatementsList (Num 41) ] /\
  fst (run InvestorStatementsPage b_admin_investor)
    <> Returned [ InvestorStatementsList Undefined ].
Proof. repeat split; vm_compute; try reflexivity; discriminate. Qed.

(** C4 (amended).  For an admin without organization memberships the
    investor classification decides the filter of the single list: with
    contact type 12 it is the id of the contact row, otherwise the list is
    unrestricted. *)
Theorem admin_without_orgs_scope b u :
  auth_getUser b = Some u ->
  role_of b u = Str "admin" ->
  membership_count b u = 0%nat ->
  (contact_type_id_of b u = Num 12 ->
   exists row,
     contact b (user_id u) = Some row /\
     fst (run InvestorStatementsPage b)
       = Returned [ InvestorStatementsList (contact_id row) ])
  /\ (contact_type_id_of b u <> Num 12 ->
      fst (run InvestorStatementsPage b)
        = Returned [ InvestorStatementsList Undefined ]).
Proof.
  intros Hu Hr Hm. apply is_admin_true_iff in Hr.
  rewrite (InvestorStatementsPage_session b u Hu), Hr.
  unfold investor_view. rewrite has_orgs_count, single_view_count, Hm, Hr.
  split; intros Hc.
  - apply is_investor_true_iff in Hc.
    destruct (proj1 (is_investor_row b u) Hc) as (row & Hrow & _).
    exists row. split; [exact Hrow|].
    rewrite Hc. unfold contact_id_of. rewrite Hrow. reflexivity.
  - apply is_investor_false_iff in Hc. rewrite Hc. reflexivity.
Qed.

Lemma admin_without_orgs_scope_witness :
  (exists row,
     contact b_admin_investor "user_2aXk" = Some row /\
     fst (run InvestorStatementsPage b_admin_investor)
       = Returned [ InvestorStatementsList (contact_id row) ])
  /\ fst (run InvestorStatementsPage b_admin)
       = Returned [ InvestorStatementsList Undefined ].
Proof.
  split.
  - apply (proj1 (admin_without_orgs_scope b_admin_investor alice
                    eq_refl eq_refl eq_refl)).
    reflexivity.
  - apply (proj2 (admin_without_orgs_scope b_admin alice
                    eq_refl eq_refl eq_refl)).
    vm_compute. discriminate.
Defined.

(** C5. An investor (contact type 12) who is not an admin and has no
    organization membership gets exactly one list, filtered by the id of
    the contact row. *)
Theorem investor_without_orgs_scope b u :
  auth_getUser b = Some u ->
  contact_type_id_of b u = Num 12 ->
  role_of b u <> Str "admin" ->
  membership_count b u = 0%nat ->
  exists row,
    contact b (user_id u) = Some row /\
    fst (run InvestorStatementsPage b)
      = Returned [ InvestorStatementsList (contact_id row) ].
Proof.
  intros Hu Hc Hr Hm.
  apply is_investor_true_iff in Hc. apply is_admin_false_iff in Hr.
  destruct (proj1 (is_investor_row b u) Hc) as (row & Hrow & _).
  exists row. split; [exact Hrow|].
  rewrite (InvestorStatementsPage_session b u Hu), Hc, Hr. simpl.
  unfold investor_view.
  rewrite Hc, has_orgs_count, single_view_count, Hm.
  unfold contact_id_of. rewrite Hrow. reflexivity.
Qed.

Lemma investor_without_orgs_scope_witness :
  exists row,
    contact b_investor "user_2aXk" = Some row /\
    fst (run InvestorStatementsPage b_investor)
      = Returned [ InvestorStatementsList (contact_id row) ].
Proof.
  apply (investor_without_orgs_scope b_investor alice);
    [reflexivity | reflexivity | vm_compute; discriminate | reflexivity].
Defined.

(** C6 (as stated, refuted).  For an admin who is also an investor without
    organization memberships the investor page renders neither the
    unrestricted list nor the investor list plus the unrestricted list: no
    unrestricted list is rendered at all. *)
Lemma admin_investor_scope_counterexample :
  auth_getUser b_admin_investor = Some alice /\
  role_of b_admin_investor alice = Str "admin" /\
  fst (run InvestorStatementsPage b_admin_investor)
    <> Returned [ InvestorStatementsList Undefined ] /\
  fst (run InvestorStatementsPage b_admin_investor)
    <> Returned [ InvestorStatementsList (Num 41);
                  InvestorStatementsList Undefined ] /\
  forall v,
    fst (run InvestorStatementsPage b_admin_investor) = Returned v ->
    ~ In (InvestorStatementsList Undefined) v.
Proof.
  repeat split; try (vm_compute; discriminate).
  intros v Hv. vm_compute in Hv. injection Hv as <-.
  intros [H | []]. discriminate H.
Qed.

(** C6 (amended).  An admin is never denied.  The admin page renders; the
    investor page renders the unrestricted list when the admin is not an
    investor, the single list filtered by the contact id when the admin is
    an investor without memberships, and the investor list, the unrestricted
    list and the investor list again when the admin is an investor with
    memberships. *)
Theorem admin_always_allowed b u :
  auth_getUser b = Some u ->
  role_of b u = Str "admin" ->
  fst (run InvestorStatementsAdminPage b) = Returned [ InvestorStatementsAdmin ]
  /\ fst (run InvestorStatementsPage b) =
     Returned
       (if is_investor b u then
          if (membership_count b u =? 0)%nat
          then [ InvestorStatementsList (contact_id_of b u) ]
          else [ InvestorStatementsList (contact_id_of b u);
                 InvestorStatementsList Undefined;
                 InvestorStatementsList (contact_id_of b u) ]
        else [ InvestorStatementsList Undefined ]).
Proof.
  intros Hu Hr. apply is_admin_true_iff in Hr.
  rewrite (InvestorStatementsAdminPage_session b u Hu),
    (InvestorStatementsPage_session b u Hu), Hr.
  split; [reflexivity|].
  rewrite andb_false_r. simpl. unfold investor_view.
  rewrite has_orgs_count, single_view_count, Hr.
  destruct (is_investor b u); [|reflexivity].
  destruct (membership_count b u =? 0)%nat; reflexivity.
Qed.

Lemma admin_always_allowed_witness :
  fst (run InvestorStatementsAdminPage b_admin_investor_orgs)
    = Returned [ InvestorStatementsAdmin ]
  /\ fst (run InvestorStatementsPage b_admin_investor_orgs)
     = Returned [ InvestorStatementsList (Num 41);
                  InvestorStatementsList Undefined;
                  InvestorStatementsList (Num 41) ].
Proof.
  apply (admin_always_allowed b_admin_investor_orgs alice); reflexivity.
Defined.

(** C7. Without a session both pages redirect to [/sign-in], and the only
    call issued is the one to the authentication provider: no contact,
    profile or membership lookup is made. *)
Theorem no_session_redirects_before_lookups b :
  auth_getUser b = None ->
  run InvestorStatementsPage b = (Redirect "/sign-in", [GetUser]) /\
  run InvestorStatementsAdminPage b = (Redirect "/sign-in", [GetUser]) /\
  existsb is_lookup (snd (run InvestorStatementsPage b)) = false /\
  existsb is_lookup (snd (run InvestorStatementsAdminPage b)) = false.
Proof.
  intros H.
  rewrite (InvestorStatementsPage_no_session b H),
    (InvestorStatementsAdminPage_no_session b H).
  repeat split.
Qed.

Lemma no_session_redirects_before_lookups_witness :
  run InvestorStatementsPage b_anonymous = (Redirect "/sign-in", [GetUser]) /\
  run InvestorStatementsAdminPage b_anonymous = (Redirect "/sign-in", [GetUser]).
Proof.
  split;
    apply (no_session_redirects_before_lookups b_anonymous); reflexivity.
Defined.

(** C8 (as stated, refuted).  Losing the contact row does not always narrow
    the scope.  An admin with contact type 12, contact id 41 and no
    membership is shown the single list filtered by 41; the same admin
    without contact row is not denied and is shown the single list without
    filter, which the view rendered before does not contain. *)
Lemma absent_contact_widens_counterexample :
  auth_getUser b_admin = Some alice /\
  contact b_admin (user_id alice) = None /\
  role_of b_admin alice = role_of b_admin_investor alice /\
  memberships_of b_admin alice = memberships_of b_admin_investor alice /\
  fst (run InvestorStatementsPage b_admin_investor)
    = Returned [ InvestorStatementsList (Num 41) ] /\
  fst (run InvestorStatementsPage b_admin)
    = Returned [ InvestorStatementsList Undefined ] /\
  fst (run InvestorStatementsPage b_admin) <> Denied /\
  ~ no_wider (fst (run InvestorStatementsPage b_admin))
             (fst (run InvestorStatementsPage b_admin_investor)).
Proof.
  repeat split; try (vm_compute; discriminate).
  intros H. vm_compute in H.
  destruct (H (InvestorStatementsList Undefined) (or_introl eq_refl)) as [E | []].
  discriminate E.
Qed.

(** C8 (amended).  For a signed-in principal both pages always finish, with
    a redirect to [/dashboard] or with a rendered view, and never with an
    error.  A missing contact row or a null contact type makes the principal
    a non-investor; a missing profile row or a null role makes it a
    non-admin; the outcome is then the denial, or the view the other
    attribute alone grants.  Losing the profile never widens what is
    rendered.  Losing the contact row never widens it either, except against
    an admin investor without memberships, whose filtered list becomes the
    list without filter. *)
Theorem evaluation_total_without_error b u :
  auth_getUser b = Some u ->
  let r := fst (run InvestorStatementsPage b) in
  let a := fst (run InvestorStatementsAdminPage b) in
  (r <> TypeError /\ a <> TypeError)
  /\ (r = Denied \/ exists v, r = Returned v)
  /\ (a = Denied \/ a = Returned [ InvestorStatementsAdmin ])
  /\ (contact b (user_id u) = None \/ contact_type_id_of b u = Null
      \/ contact_type_id_of b u = Undefined ->
      is_investor b u = false /\
      r = if is_admin b u
          then Returned [ InvestorStatementsList Undefined ]
          else Denied)
  /\ (auth_user_profiles b (user_id u) = None \/ role_of b u = Null
      \/ role_of b u = Undefined ->
      is_admin b u = false /\
      a = Denied /\
      r = if is_investor b u
          then Returned
                 (if (membership_count b u =? 0)%nat
                  then [ InvestorStatementsList (contact_id_of b u) ]
                  else [ InvestorStatementsList (contact_id_of b u);
                         InvestorStatementsList Undefined ])
          else Denied)
  /\ (forall b' u',
        auth_getUser b' = Some u' ->
        auth_user_profiles b (user_id u) = None \/ role_of b u = Null
        \/ role_of b u = Undefined ->
        contact_type_id_of b' u' = contact_type_id_of b u ->
        contact_id_of b' u' = contact_id_of b u ->
        memberships_of b' u' = memberships_of b u ->
        no_wider r (fst (run InvestorStatementsPage b'))
        /\ no_wider a (fst (run InvestorStatementsAdminPage b')))
  /\ (forall b' u',
        auth_getUser b' = Some u' ->
        contact b (user_id u) = None \/ contact_type_id_of b u = Null
        \/ contact_type_id_of b u = Undefined ->
        role_of b' u' = role_of b u ->
        ~ (is_admin b' u' = true /\ is_investor b' u' = true
           /\ membership_count b' u' = 0%nat) ->
        no_wider r (fst (run InvestorStatementsPage b'))).
Proof.
  intros Hu r a. subst r a.
  split; [apply pages_raise_no_error|].
  rewrite (InvestorStatementsPage_session b u Hu),
    (InvestorStatementsAdminPage_session b u Hu).
  split; [|split; [|split; [|split; [|split]]]].
  - destruct (negb (is_investor b u) && negb (is_admin b u));
      [left; reflexivity | right; eexists; reflexivity].
  - destruct (is_admin b u); [right | left]; reflexivity.
  - intros H. apply absent_contact_not_investor in H.
    split; [exact H|].
    unfold investor_view. rewrite H.
    destruct (is_admin b u); reflexivity.
  - intros H. apply absent_profile_not_admin in H.
    split; [exact H|]. rewrite H. split; [reflexivity|].
    unfold investor_view. rewrite has_orgs_count, single_view_count, H.
    destruct (is_investor b u); [|reflexivity].
    destruct (membership_count b u =? 0)%nat; reflexivity.
  - intros b' u' Hu' H Hc Hi Hm.
    apply absent_profile_not_admin in H. rewrite H.
    split; [|exact I].
    rewrite (InvestorStatementsPage_session b' u' Hu').
    unfold investor_view, is_investor. rewrite Hc, Hi, Hm.
    fold (is_investor b u). rewrite H.
    destruct (is_investor b u); [|exact I]. simpl.
    destruct (memberships_of b u) as [[|row l]|], (is_admin b' u'); simpl;
      intros c Hin; simpl in *; tauto.
  - intros b' u' Hu' H Hr Hex.
    apply absent_contact_not_investor in H.
    assert (Hv : investor_view b u = [ InvestorStatementsList Undefined ])
      by (unfold investor_view; now rewrite H).
    rewrite H, Hv. simpl.
    assert (Ha : is_admin b' u' = is_admin b u)
      by (unfold is_admin; now rewrite Hr).
    destruct (is_admin b u); [|exact I]. simpl.
    rewrite (InvestorStatementsPage_session b' u' Hu'), Ha, andb_false_r.
    simpl. unfold investor_view.
    rewrite has_orgs_count, single_view_count, Ha.
    destruct (is_investor b' u'); [|intros c Hin; exact Hin].
    destruct (membership_count b' u') as [|n]; [exfalso; apply Hex; auto|].
    intros c [<- | []]. simpl. auto.
Qed.

Lemma evaluation_total_without_error_witness :
  fst (run InvestorStatementsPage b_admin)
    = Returned [ InvestorStatementsList Undefined ]
  /\ fst (run InvestorStatementsPage b_investor)
     = Returned [ InvestorStatementsList (Num 41) ]
  /\ fst (run InvestorStatementsAdminPage b_investor) = Redirect "/dashboard"
  /\ no_wider (fst (run InvestorStatementsPage b_investor_orgs_no_profile))
       (fst (run InvestorStatementsPage b_admin_investor_orgs))
  /\ no_wider (fst (run InvestorStatementsPage b_admin))
       (fst (run InvestorStatementsPage b_admin_investor_orgs)).
Proof.
  pose proof (evaluation_total_without_error b_admin alice eq_refl)
    as (_ & _ & _ & Hc & _ & _ & Hcw).
  pose proof (evaluation_total_without_error b_investor alice eq_refl)
    as (_ & _ & _ & _ & Hp & _).
  pose proof (evaluation_total_without_error b_investor_orgs_no_profile alice
                eq_refl)
    as (_ & _ & _ & _ & _ & Hpw & _).
  split; [exact (proj2 (Hc (or_introl eq_refl)))|].
  split; [exact (proj2 (proj2 (Hp (or_introl eq_refl))))|].
  split; [exact (proj1 (proj2 (Hp (or_introl eq_refl))))|].
  split.
  - exact (proj1 (Hpw b_admin_investor_orgs alice eq_refl (or_introl eq_refl)
                    eq_refl eq_refl eq_refl)).
  - apply (Hcw b_admin_investor_orgs alice eq_refl (or_introl eq_refl) eq_refl).
    vm_compute. intros (_ & _ & H). discriminate H.
Defined.

(** C9. The outcome of either page is a function of the resolved role,
    contact type, contact id and membership snapshot alone: two requests
    that agree on these four get the same decision and the same lists,
    whatever else differs (user id, other rows, org ids of other users). *)
Theorem evaluation_deterministic b1 u1 b2 u2 :
  auth_getUser b1 = Some u1 ->
  auth_getUser b2 = Some u2 ->
  role_of b1 u1 = role_of b2 u2 ->
  contact_type_id_of b1 u1 = contact_type_id_of b2 u2 ->
  contact_id_of b1 u1 = contact_id_of b2 u2 ->
  memberships_of b1 u1 = memberships_of b2 u2 ->
  fst (run InvestorStatementsPage b1) = fst (run InvestorStatementsPage b2) /\
  fst (run InvestorStatementsAdminPage b1) = fst (run InvestorStatementsAdminPage b2).
Proof.
  intros H1 H2 Hr Hc Hi Hm.
  rewrite (InvestorStatementsPage_session b1 u1 H1),
    (InvestorStatementsPage_session b2 u2 H2),
    (InvestorStatementsAdminPage_session b1 u1 H1),
    (InvestorStatementsAdminPage_session b2 u2 H2).
  unfold investor_view, is_investor, is_admin.
  rewrite Hr, Hc, Hi, Hm.
  split.
  - destruct (negb (strict_eq (contact_type_id_of b2 u2) (Num 12))
              && negb (strict_eq (role_of b2 u2) (Str "admin")));
      reflexivity.
  - destruct (strict_eq (role_of b2 u2) (Str "admin")); reflexivity.
Qed.

Lemma evaluation_deterministic_witness :
  fst (run InvestorStatementsPage b_investor_orgs)
    = fst (run InvestorStatementsPage b_investor_orgs_bob) /\
  fst (run InvestorStatementsAdminPage b_investor_orgs)
    = fst (run InvestorStatementsAdminPage b_investor_orgs_bob).
Proof.
  apply (evaluation_deterministic b_investor_orgs alice b_investor_orgs_bob bob);
    reflexivity.
Defined.

(** C10. The investor test succeeds only on a contact row of type 12, so
    every list that receives an investor id receives the id of a contact
    row that exists, and an investor's view does contain the list filtered
    by the id of that row. *)
Theorem investor_id_comes_from_contact_row b u v :
  auth_getUser b = Some u ->
  fst (run InvestorStatementsPage b) = Returned v ->
  (forall x,
     In (InvestorStatementsList x) v -> x <> Undefined ->
     exists row,
       contact b (user_id u) = Some row /\
       contact_types_id row = Num 12 /\
       x = contact_id row)
  /\ (is_investor b u = true ->
      exists row,
        contact b (user_id u) = Some row /\
        contact_types_id row = Num 12 /\
        In (InvestorStatementsList (contact_id row)) v).
Proof.
  intros Hu Hv.
  rewrite (InvestorStatementsPage_session b u Hu) in Hv.
  destruct (is_investor b u) eqn:Hc.
  - simpl in Hv. injection Hv as <-.
    destruct (proj1 (is_investor_row b u) Hc) as (row & Hrow & Hty).
    unfold investor_view. rewrite Hc. unfold contact_id_of. rewrite Hrow. simpl.
    rewrite has_orgs_count, single_view_count.
    split.
    + intros x Hx Hdef. exists row. repeat split; trivial.
      destruct (membership_count b u =? 0)%nat, (is_admin b u); simpl in Hx;
        repeat (destruct Hx as [Hx | Hx]; [injection Hx as Hx; congruence|]);
        contradiction.
    + intros _. exists row. repeat split; trivial.
      destruct (membership_count b u =? 0)%nat, (is_admin b u); simpl; auto.
  - split; [|discriminate].
    destruct (is_admin b u); simpl in Hv; [|discriminate].
    injection Hv as <-. unfold investor_view. rewrite Hc.
    intros x [Hx | []] Hdef. injection Hx as Hx. congruence.
Qed.

Lemma investor_id_comes_from_contact_row_witness :
  exists row,
    contact b_investor_orgs "user_2aXk" = Some row /\
    contact_types_id row = Num 12 /\
    In (InvestorStatementsList (contact_id row))
      [ InvestorStatementsList (Num 41); InvestorStatementsList Undefined ].
Proof.
  apply (proj2 (investor_id_comes_from_contact_row b_investor_orgs alice
                  [ InvestorStatementsList (Num 41); InvestorStatementsList Undefined ]
                  eq_refl eq_refl)).
  reflexivity.
Defined.

(** ** Further properties of the two pages *)

(** The two conditional blocks of the investor page leave no gap: when the
    first is skipped the second is shown. *)
Lemma blocks_cover userOrgs isAdmin :
  has_orgs userOrgs = false -> single_view userOrgs isAdmin = true.
Proof.
  unfold has_orgs, single_view.
  destruct userOrgs as [[|r l]|]; simpl; try reflexivity; discriminate.
Qed.

(** X1. With a session the investor page issues its calls in one fixed
    order, each at most once: the auth call, the contact lookup, the
    profile lookup, and then the membership lookup exactly when the contact
    type is 12.  Both row lookups are made whatever the first one returned,
    and a denied request never reads the membership table. *)
Theorem investor_page_calls b u :
  auth_getUser b = Some u ->
  snd (run InvestorStatementsPage b) =
    [GetUser; q_contact u; q_profile u]
    ++ (if is_investor b u then [q_org_members u] else [])
  /\ ((exists e, In e (snd (run InvestorStatementsPage b))
                 /\ table_of e = Some "user_clerk_org_members")
      <-> contact_type_id_of b u = Num 12)
  /\ (fst (run InvestorStatementsPage b) = Denied ->
      snd (run InvestorStatementsPage b) = [GetUser; q_contact u; q_profile u]).
Proof.
  intros Hu. rewrite (InvestorStatementsPage_session b u Hu).
  rewrite <- is_investor_true_iff.
  split; [|split].
  - destruct (is_investor b u), (is_admin b u); reflexivity.
  - split.
    + intros (e & He & Ht).
      destruct (is_investor b u); [reflexivity|].
      destruct (is_admin b u); simpl in He;
        repeat (destruct He as [<- | He]; [discriminate Ht|]); contradiction.
    + intros ->. exists (q_org_members u). simpl. auto 10.
  - destruct (is_investor b u), (is_admin b u); simpl;
      try discriminate; reflexivity.
Qed.

Lemma investor_page_calls_witness :
  snd (run InvestorStatementsPage b_admin) =
    [GetUser; q_contact alice; q_profile alice] /\
  snd (run InvestorStatementsPage b_investor_orgs) =
    [GetUser; q_contact alice; q_profile alice; q_org_members alice].
Proof.
  split.
  - apply (proj1 (investor_page_calls b_admin alice eq_refl)).
  - apply (proj1 (investor_page_calls b_investor_orgs alice eq_refl)).
Defined.

(** X2. Every row lookup either page issues filters on the id of the
    signed-in user: no request reads rows selected by another key. *)
Theorem lookups_filter_on_session_user b u e :
  auth_getUser b = Some u ->
  In e (snd (run InvestorStatementsPage b))
  \/ In e (snd (run InvestorStatementsAdminPage b)) ->
  e = GetUser \/ key_of e = Some (user_id u).
Proof.
  intros Hu.
  rewrite (InvestorStatementsPage_session b u Hu),
    (InvestorStatementsAdminPage_session b u Hu).
  destruct (is_investor b u), (is_admin b u); simpl;
    intros [He | He];
    repeat (destruct He as [<- | He]; [auto|]); contradiction.
Qed.

Lemma lookups_filter_on_session_user_witness :
  q_org_members alice = GetUser
  \/ key_of (q_org_members alice) = Some "user_2aXk".
Proof.
  apply (lookups_filter_on_session_user b_investor_orgs alice
           (q_org_members alice) eq_refl).
  left. vm_compute. auto.
Defined.

(** X3. The admin page reads nothing but the profile table: whatever the
    session and the stored rows, it never queries the contact or the
    membership table, and it issues at most two calls. *)
Theorem admin_page_reads_profile_only b e :
  In e (snd (run InvestorStatementsAdminPage b)) ->
  (e = GetUser \/ table_of e = Some "auth_user_profiles")
  /\ (length (snd (run InvestorStatementsAdminPage b)) <= 2)%nat.
Proof.
  destruct (auth_getUser b) as [u|] eqn:Hu.
  - rewrite (InvestorStatementsAdminPage_session b u Hu).
    destruct (is_admin b u); simpl; intros He; (split; [|lia]);
      repeat (destruct He as [<- | He]; [auto|]); contradiction.
  - rewrite (InvestorStatementsAdminPage_no_session b Hu). simpl.
    intros [<- | []]. split; [auto | lia].
Qed.

Lemma admin_page_reads_profile_only_witness :
  (q_profile alice = GetUser
   \/ table_of (q_profile alice) = Some "auth_user_profiles")
  /\ (length (snd (run InvestorStatementsAdminPage b_admin)) <= 2)%nat.
Proof.
  apply (admin_page_reads_profile_only b_admin (q_profile alice)).
  vm_compute. auto.
Defined.

(** X4. Whenever the investor page renders, it renders at least one and at
    most three statement lists and nothing else; three lists appear exactly
    for an admin investor with at least one membership. *)
Theorem investor_view_shape b u v :
  auth_getUser b = Some u ->
  fst (run InvestorStatementsPage b) = Returned v ->
  (1 <= length v <= 3)%nat
  /\ forallb is_list v = true
  /\ (length v = 3%nat <->
      is_investor b u = true /\ is_admin b u = true
      /\ (0 < membership_count b u)%nat).
Proof.
  intros Hu Hv. rewrite (InvestorStatementsPage_session b u Hu) in Hv.
  unfold investor_view in Hv.
  rewrite has_orgs_count, single_view_count in Hv.
  destruct (is_investor b u), (is_admin b u); simpl in Hv;
    try discriminate; injection Hv as <-.
  all: destruct (membership_count b u) as [|n]; simpl.
  all: repeat split; try lia; try discriminate; try (intros (? & ? & ?)); try lia;
    try discriminate.
Qed.

Lemma investor_view_shape_witness :
  (1 <= 3 <= 3)%nat
  /\ forallb is_list
       [ InvestorStatementsList (Num 41); InvestorStatementsList Undefined;
         InvestorStatementsList (Num 41) ] = true
  /\ (3%nat = 3%nat <->
      is_investor b_admin_investor_orgs alice = true
      /\ is_admin b_admin_investor_orgs alice = true
      /\ (0 < membership_count b_admin_investor_orgs alice)%nat).
Proof.
  apply (investor_view_shape b_admin_investor_orgs alice
           [ InvestorStatementsList (Num 41); InvestorStatementsList Undefined;
             InvestorStatementsList (Num 41) ] eq_refl eq_refl).
Defined.

(** X5. The org ids fetched for an investor never influence the page: two
    requests that agree on role, contact type and contact id, and on whether
    the membership query returned at least one row, get the same outcome,
    whichever organizations the rows name. *)
Theorem org_ids_do_not_matter b1 u1 b2 u2 :
  auth_getUser b1 = Some u1 ->
  auth_getUser b2 = Some u2 ->
  role_of b1 u1 = role_of b2 u2 ->
  contact_type_id_of b1 u1 = contact_type_id_of b2 u2 ->
  contact_id_of b1 u1 = contact_id_of b2 u2 ->
  has_orgs (memberships_of b1 u1) = has_orgs (memberships_of b2 u2) ->
  fst (run InvestorStatementsPage b1) = fst (run InvestorStatementsPage b2).
Proof.
  intros H1 H2 Hr Hc Hi Hm.
  rewrite (InvestorStatementsPage_session b1 u1 H1),
    (InvestorStatementsPage_session b2 u2 H2).
  unfold investor_view, is_investor, is_admin.
  rewrite Hr, Hc, Hi, Hm.
  assert (Hs : forall a, single_view (memberships_of b1 u1) a
                         = single_view (memberships_of b2 u2) a).
  { intros a. unfold has_orgs in Hm. unfold single_view.
    destruct (memberships_of b1 u1) as [[|r1 l1]|],
             (memberships_of b2 u2) as [[|r2 l2]|];
      simpl in *; try reflexivity; discriminate. }
  rewrite Hs.
  destruct (strict_eq (contact_type_id_of b2 u2) (Num 12)),
           (strict_eq (role_of b2 u2) (Str "admin")); reflexivity.
Qed.

Lemma org_ids_do_not_matter_witness :
  fst (run InvestorStatementsPage b_investor_orgs)
  = fst (run InvestorStatementsPage b_investor_one_org).
Proof.
  apply (org_ids_do_not_matter b_investor_orgs alice b_investor_one_org bob);
    reflexivity.
Defined.

(** X6. Who is shown a list without investor filter: a rendered view
    contains one exactly when the principal is not an investor (hence an
    admin), or has at least one membership, or has a contact row without
    id. *)
Theorem unrestricted_list_iff b u v :
  auth_getUser b = Some u ->
  fst (run InvestorStatementsPage b) = Returned v ->
  In (InvestorStatementsList Undefined) v <->
  contact_type_id_of b u <> Num 12
  \/ (0 < membership_count b u)%nat
  \/ contact_id_of b u = Undefined.
Proof.
  intros Hu Hv. rewrite (InvestorStatementsPage_session b u Hu) in Hv.
  rewrite <- is_investor_false_iff.
  unfold investor_view in Hv.
  rewrite has_orgs_count, single_view_count in Hv.
  destruct (is_investor b u), (is_admin b u); simpl in Hv;
    try discriminate; injection Hv as <-.
  all: destruct (membership_count b u) as [|n]; simpl.
  all: split;
    [ intros H;
      repeat (destruct H as [H | H];
              [ first [ injection H as H; auto | auto with arith ] |]);
      try contradiction; auto with arith
    | intros [H | [H | H]]; try discriminate; try lia; auto; rewrite ?H; auto ].
Qed.

Lemma unrestricted_list_iff_witness :
  In (InvestorStatementsList Undefined)
    [ InvestorStatementsList (Num 41); InvestorStatementsList Undefined ] <->
  contact_type_id_of b_investor_orgs alice <> Num 12
  \/ (0 < membership_count b_investor_orgs alice)%nat
  \/ contact_id_of b_investor_orgs alice = Undefined.
Proof.
  apply (unrestricted_list_iff b_investor_orgs alice
           [ InvestorStatementsList (Num 41); InvestorStatementsList Undefined ]
           eq_refl eq_refl).
Defined.

(** X7. The pages redirect to two places only: to [/sign-in], which
    happens only without a session, and to [/dashboard], which happens only
    with one.  A signed-in user is never sent back to sign in. *)
Theorem redirect_targets b p :
  fst (run InvestorStatementsPage b) = Redirect p
  \/ fst (run InvestorStatementsAdminPage b) = Redirect p ->
  (p = "/sign-in" /\ auth_getUser b = None)
  \/ (p = "/dashboard" /\ exists u, auth_getUser b = Some u).
Proof.
  destruct (auth_getUser b) as [u|] eqn:Hu.
  - rewrite (InvestorStatementsPage_session b u Hu),
      (InvestorStatementsAdminPage_session b u Hu).
    intros H. right. split; [|now exists u].
    destruct (is_investor b u), (is_admin b u); simpl in H;
      destruct H as [H | H]; try discriminate; now injection H.
  - rewrite (InvestorStatementsPage_no_session b Hu),
      (InvestorStatementsAdminPage_no_session b Hu).
    intros H. left. split; [|reflexivity].
    destruct H as [H | H]; now injection H.
Qed.

Lemma redirect_targets_witness :
  ("/dashboard" = "/sign-in" /\ auth_getUser b_borrower = None)
  \/ ("/dashboard" = "/dashboard" /\ exists u, auth_getUser b_borrower = Some u).
Proof.
  apply (redirect_targets b_borrower "/dashboard").
  left. reflexivity.
Defined.

(** X8. Granting the admin role never takes a list away on the investor
    page: with the contact row and the memberships unchanged, the view an
    admin gets starts with the view rendered before. *)
Theorem admin_role_only_adds b1 u1 b2 u2 v1 :
  auth_getUser b1 = Some u1 ->
  auth_getUser b2 = Some u2 ->
  contact_type_id_of b1 u1 = contact_type_id_of b2 u2 ->
  contact_id_of b1 u1 = contact_id_of b2 u2 ->
  memberships_of b1 u1 = memberships_of b2 u2 ->
  role_of b2 u2 = Str "admin" ->
  fst (run InvestorStatementsPage b1) = Returned v1 ->
  exists rest, fst (run InvestorStatementsPage b2) = Returned (v1 ++ rest).
Proof.
  intros H1 H2 Hc Hi Hm Hr Hv.
  apply is_admin_true_iff in Hr.
  rewrite (InvestorStatementsPage_session b1 u1 H1) in Hv.
  rewrite (InvestorStatementsPage_session b2 u2 H2), Hr, andb_false_r.
  unfold investor_view in *. unfold is_investor in *.
  rewrite Hr. rewrite Hc, Hi, Hm in Hv.
  destruct (strict_eq (contact_type_id_of b2 u2) (Num 12)).
  - destruct (is_admin b1 u1); simpl in Hv; injection Hv as <-.
    + exists []. now rewrite app_nil_r.
    + destruct (memberships_of b2 u2) as [[|r l]|]; simpl.
      * exists []. reflexivity.
      * exists [InvestorStatementsList (contact_id_of b2 u2)]. reflexivity.
      * exists []. reflexivity.
  - destruct (is_admin b1 u1); simpl in Hv; [|discriminate].
    injection Hv as <-. exists []. reflexivity.
Qed.

Lemma admin_role_only_adds_witness :
  exists rest,
    fst (run InvestorStatementsPage b_admin_investor_orgs) =
    Returned ([ InvestorStatementsList (Num 41); InvestorStatementsList Undefined ]
              ++ rest).
Proof.
  apply (admin_role_only_adds b_investor_orgs alice b_admin_investor_orgs alice);
    reflexivity.
Defined.

(** ** Properties of the integration script *)

Lemma prefix_iff (a s : string) :
  String.prefix a s = true <-> exists b, s = (a ++ b)%string.
Proof.
  revert s. induction a as [|c a IH]; intros s; simpl.
  - split; [intros _; now exists s | intros _; destruct s; reflexivity].
  - destruct s as [|d s]; simpl.
    + split; [discriminate | intros (b & Hb); discriminate].
    + destruct (Ascii.ascii_dec c d) as [<- | Hcd].
      * rewrite IH. split; intros (b & Hb); exists b; congruence.
      * split; [discriminate | intros (b & Hb); congruence].
Qed.

Lemma includes_unfold (s sub : string) :
  includes s sub =
  if String.prefix sub s then true
  else match s with
       | EmptyString => false
       | String _ s' => includes s' sub
       end.
Proof. destruct s; reflexivity. Qed.

Lemma includes_iff (s sub : string) :
  includes s sub = true <-> exists a b, s = (a ++ sub ++ b)%string.
Proof.
  induction s as [|c s IH]; rewrite includes_unfold.
  - destruct (String.prefix sub "") eqn:Hp.
    + apply prefix_iff in Hp as (b & Hb). split; [|reflexivity].
      intros _. now exists "", b.
    + split; [discriminate|]. intros ([|c a] & b & Hab); [|discriminate].
      simpl in Hab.
      assert (String.prefix sub "" = true) by (apply prefix_iff; eauto).
      congruence.
  - destruct (String.prefix sub (String c s)) eqn:Hp.
    + apply prefix_iff in Hp as (b & Hb). split; [|reflexivity].
      intros _. now exists "", b.
    + rewrite IH. split.
      * intros (a & b & ->). now exists (String c a), b.
      * intros ([|c' a] & b & Hab); simpl in Hab.
        -- assert (String.prefix sub (String c s) = true)
             by (apply prefix_iff; eauto).
           congruence.
        -- injection Hab as _ ->. eauto.
Qed.

Lemma table_report_is_log w table : is_log (table_report w table) = true.
Proof.
  unfold table_report.
  destruct (from_select_limit w table "*" 0) as [data [m|]|m]; try reflexivity.
  destruct (includes m "permission denied" || includes m "RLS"); reflexivity.
Qed.

Lemma testConnection_logs_and_queries w :
  forallb (fun e => is_log e || is_query e) (testConnection w) = true.
Proof.
  unfold testConnection.
  destruct (createClient w (SUPABASE_URL w) (SUPABASE_ANON_KEY w)); [reflexivity|].
  destruct (from_select_limit w "contact_types" "id" 1) as [data [m|]|m];
    reflexivity.
Qed.

Lemma table_loop_logs_and_queries w tables :
  forallb (fun e => is_log e || is_query e)
    (flat_map (fun table => [ Query table "*" 0; table_report w table ]) tables)
  = true.
Proof.
  induction tables as [|t tables IH]; simpl; [reflexivity|].
  now rewrite table_report_is_log, IH.
Qed.

Lemma testValidation_logs w : forallb is_log (testValidation w) = true.
Proof. unfold testValidation. destruct (validation w); reflexivity. Qed.

Lemma required_report_is_log w x : is_log (required_report w x) = true.
Proof.
  unfold required_report.
  destruct (process_env w x) as [v|]; [destruct (String.eqb v "")|]; reflexivity.
Qed.

Lemma optional_report_is_log w x : is_log (optional_report w x) = true.
Proof.
  unfold optional_report. destruct (truthy (process_env w x)); reflexivity.
Qed.

Lemma checkEnvironment_logs w : forallb is_log (checkEnvironment w) = true.
Proof.
  unfold checkEnvironment. simpl.
  now rewrite !required_report_is_log, !optional_report_is_log.
Qed.

Lemma forallb_weaken {A} (p q : A -> bool) l :
  (forall x, p x = true -> q x = true) ->
  forallb p l = true -> forallb q l = true.
Proof.
  intros Hpq. rewrite !forallb_forall. auto.
Qed.

(** Once test 1 has passed, the rest of the script is fixed. *)
Lemma script_after_client_creation w url key :
  SUPABASE_URL w = Some url ->
  SUPABASE_ANON_KEY w = Some key ->
  url <> "" -> key <> "" ->
  createClient w (Some url) (Some key) = None ->
  script w =
    [ Log ("🧪 Starting Supabase Integration Tests..." +++ nl);
      Log "1️⃣  Testing client creation...";
      Log "   ✅ Supabase client created successfully";
      Log ("   📡 URL: " +++ url);
      Log ("   🔑 Key: " +++ substring 0 20 key +++ "...") ]
    ++ section_headers
    ++ testConnection w
    ++ flat_map (fun table => [ Query table "*" 0; table_report w table ])
         criticalTables
    ++ testValidation w ++ checkEnvironment w ++ closing_lines.
Proof.
  intros Hu Hk Hue Hke Hc.
  unfold script, test_client_creation, runTests, testTableStructures.
  rewrite Hu, Hk, Hc.
  apply String.eqb_neq in Hue, Hke. rewrite Hue, Hke. reflexivity.
Qed.

Lemma truthy_true_iff v : truthy v = true <-> exists s, v = Some s /\ s <> "".
Proof.
  destruct v as [s|]; simpl.
  - rewrite negb_true_iff, String.eqb_neq. split.
    + intros H. now exists s.
    + intros (s' & [= <-] & H). exact H.
  - split; [discriminate | intros (s & [=] & _)].
Qed.

Lemma log_is_no_query e : is_log e = true -> is_query e = false.
Proof. destruct e; simpl; congruence. Qed.

Lemma logs_hold_no_query l : forallb is_log l = true -> filter is_query l = [].
Proof.
  induction l as [|e l IH]; simpl; [reflexivity|].
  intros H. apply andb_true_iff in H as (He & Hl).
  now rewrite (log_is_no_query e He), IH.
Qed.

(** The queries the script can issue, in the order of the source. *)
Lemma table_loop_queries w tables :
  filter is_query
    (flat_map (fun table => [ Query table "*" 0; table_report w table ]) tables)
  = map (fun table => Query table "*" 0) tables.
Proof.
  induction tables as [|t tables IH]; simpl; [reflexivity|].
  now rewrite (log_is_no_query _ (table_report_is_log w t)), IH.
Qed.

(** X9. Without the project URL or the anon key (unset, or set to the empty
    string) the script prints the two opening lines and the failure line,
    exits with status 1, and runs none of the tests: no query is issued. *)
Theorem script_stops_without_credentials w :
  truthy (SUPABASE_URL w) = false \/ truthy (SUPABASE_ANON_KEY w) = false ->
  script w =
    [ Log ("🧪 Starting Supabase Integration Tests..." +++ nl);
      Log "1️⃣  Testing client creation...";
      console_log ["   ❌ Failed to create Supabase client:"; missing_variables];
      Exit 1 ]
  /\ existsb is_query (script w) = false.
Proof.
  intros H.
  assert (Hs : script w =
    [ Log ("🧪 Starting Supabase Integration Tests..." +++ nl);
      Log "1️⃣  Testing client creation...";
      console_log ["   ❌ Failed to create Supabase client:"; missing_variables];
      Exit 1 ]).
  { unfold script, test_client_creation.
    destruct (SUPABASE_URL w) as [url|], (SUPABASE_ANON_KEY w) as [key|];
      simpl in H; try reflexivity.
    destruct (String.eqb url ""), (String.eqb key ""); simpl in *;
      try reflexivity.
    destruct H; discriminate. }
  rewrite Hs. split; reflexivity.
Qed.

Lemma script_stops_without_credentials_witness :
  last (script w_empty_key) (Log "") = Exit 1
  /\ existsb is_query (script w_empty_key) = false.
Proof.
  destruct (script_stops_without_credentials w_empty_key) as (Hs & Hq).
  - right. reflexivity.
  - rewrite Hs. split; reflexivity.
Defined.

(** X10. Once the client has been created the script always runs to its
    end: whatever the queries answer or throw and whatever the validation
    module does, it never exits with a failure status, [runTests] never
    rejects, and the output ends with the closing lines. *)
Theorem script_completes_after_client_creation w :
  truthy (SUPABASE_URL w) = true ->
  truthy (SUPABASE_ANON_KEY w) = true ->
  createClient w (SUPABASE_URL w) (SUPABASE_ANON_KEY w) = None ->
  (exists before, script w = before ++ closing_lines)
  /\ forallb (fun e => is_log e || is_query e) (script w) = true.
Proof.
  intros Hu Hk Hc.
  apply truthy_true_iff in Hu as (url & Hu & Hue).
  apply truthy_true_iff in Hk as (key & Hk & Hke).
  rewrite Hu, Hk in Hc.
  rewrite (script_after_client_creation w url key Hu Hk Hue Hke Hc).
  split.
  - eexists. rewrite !app_assoc. reflexivity.
  - assert (Hl : forall l, forallb is_log l = true ->
                           forallb (fun e => is_log e || is_query e) l = true).
    { intros l. apply forallb_weaken. intros e ->. reflexivity. }
    rewrite !forallb_app.
    rewrite testConnection_logs_and_queries, table_loop_logs_and_queries.
    rewrite (Hl _ (testValidation_logs w)), (Hl _ (checkEnvironment_logs w)).
    reflexivity.
Qed.

Lemma script_completes_after_client_creation_witness :
  (exists before, script w_rls_other_secrets = before ++ closing_lines)
  /\ forallb (fun e => is_log e || is_query e) (script w_rls_other_secrets) = true.
Proof.
  apply (script_completes_after_client_creation w_rls_other_secrets);
    reflexivity.
Defined.

(** X11. How [testTableStructures] judges a table: the line printed for it
    reports success exactly when the query resolved without error, or with
    an error whose message contains ["permission denied"] or ["RLS"]
    somewhere (case-sensitive).  Any other error, and a rejected query, is
    reported as a failure. *)
Theorem table_report_ok_iff w table :
  reports_ok (table_report w table) = true <->
  (exists data, from_select_limit w table "*" 0 = Resolved data None)
  \/ (exists data message a b,
        from_select_limit w table "*" 0 = Resolved data (Some message)
        /\ (message = (a ++ "permission denied" ++ b)%string
            \/ message = (a ++ "RLS" ++ b)%string)).
Proof.
  unfold table_report.
  destruct (from_select_limit w table "*" 0) as [data [m|]|m].
  - destruct (includes m "permission denied" || includes m "RLS") eqn:Hi.
    + split; [intros _ | reflexivity].
      right. apply orb_true_iff in Hi as [Hi | Hi];
        apply includes_iff in Hi as (a & b & Hab); exists data, m, a, b; auto.
    + split; [discriminate|].
      apply orb_false_iff in Hi as (Hp & Hr).
      intros [(d & [=]) | (d & m' & a & b & [= _ <-] & [Hm | Hm])].
      * assert (includes m "permission denied" = true)
          by (apply includes_iff; eauto).
        congruence.
      * assert (includes m "RLS" = true) by (apply includes_iff; eauto).
        congruence.
  - split; [intros _; left; now exists data | reflexivity].
  - split; [discriminate|].
    intros [(d & [=]) | (d & m' & a & b & [=] & _)].
Qed.

(** X12. The queries of a run do not depend on what the database answers:
    the script issues none when test 1 fails, and otherwise exactly eight,
    in source order - one row of [contact_types], then zero rows of each
    critical table.  A failing query never stops the later ones. *)
Theorem script_queries w :
  filter is_query (script w) =
  if snd (test_client_creation w)
  then Query "contact_types" "id" 1
       :: map (fun table => Query table "*" 0) criticalTables
  else [].
Proof.
  destruct (snd (test_client_creation w)) eqn:Ht.
  - unfold test_client_creation in Ht.
    destruct (SUPABASE_URL w) as [url|] eqn:Hu; [|discriminate].
    destruct (SUPABASE_ANON_KEY w) as [key|] eqn:Hk; [|discriminate].
    destruct (String.eqb url "") eqn:Hue; [discriminate|].
    destruct (String.eqb key "") eqn:Hke; [discriminate|].
    simpl in Ht.
    destruct (createClient w (Some url) (Some key)) eqn:Hc; [discriminate|].
    apply String.eqb_neq in Hue, Hke.
    rewrite (script_after_client_creation w url key Hu Hk Hue Hke Hc).
    rewrite !filter_app, table_loop_queries.
    rewrite (logs_hold_no_query _ (testValidation_logs w)),
      (logs_hold_no_query _ (checkEnvironment_logs w)).
    unfold testConnection. rewrite Hu, Hk, Hc.
    destruct (from_select_limit w "contact_types" "id" 1) as [data [m|]|m];
      reflexivity.
  - unfold script, test_client_creation in *.
    destruct (SUPABASE_URL w) as [url|]; [|reflexivity].
    destruct (SUPABASE_ANON_KEY w) as [key|]; [|reflexivity].
    destruct (String.eqb url "" || String.eqb key ""); [reflexivity|].
    destruct (createClient w (Some url) (Some key)); [reflexivity|discriminate].
Qed.

Lemma substring_0_nested n m s :
  (n <= m)%nat -> substring 0 n (substring 0 m s) = substring 0 n s.
Proof.
  revert m s. induction n as [|n IH]; intros m s Hnm.
  - destruct (substring 0 m s), s; reflexivity.
  - destruct m as [|m]; [lia|].
    destruct s as [|c s]; simpl; [reflexivity|].
    rewrite IH by lia. reflexivity.
Qed.

Lemma required_report_shown w x :
  required_report w x =
  match shown_of_required (process_env w x) with
  | Some shown => Log ("   ✅ " +++ x +++ ": Set (" +++ shown +++ "...)")
  | None => Log ("   ❌ " +++ x +++ ": Missing")
  end.
Proof.
  unfold required_report, shown_of_required.
  destruct (process_env w x) as [v|]; [destruct (String.eqb v "")|]; reflexivity.
Qed.

Lemma shown_prefix_nested n m v1 v2 :
  (n <= m)%nat ->
  shown_prefix m v1 = shown_prefix m v2 ->
  shown_prefix n v1 = shown_prefix n v2.
Proof.
  intros Hnm. unfold shown_prefix.
  destruct v1 as [k1|], v2 as [k2|];
    try destruct (String.eqb k1 ""); try destruct (String.eqb k2 "");
    try discriminate; try reflexivity.
  intros [= H].
  rewrite <- (substring_0_nested n m k1), <- (substring_0_nested n m k2), H
    by exact Hnm.
  reflexivity.
Qed.

Lemma shown_prefix_truthy n v1 v2 :
  shown_prefix n v1 = shown_prefix n v2 -> truthy v1 = truthy v2.
Proof.
  unfold shown_prefix, truthy.
  destruct v1 as [k1|], v2 as [k2|];
    try destruct (String.eqb k1 ""); try destruct (String.eqb k2 "");
    try discriminate; reflexivity.
Qed.

Lemma shown_in_full_truthy v1 v2 :
  shown_in_full v1 = shown_in_full v2 -> truthy v1 = truthy v2.
Proof.
  unfold shown_in_full.
  destruct (truthy v1) eqn:H1, (truthy v2) eqn:H2; try reflexivity.
  - intros ->. discriminate H1.
  - intros <-. discriminate H2.
Qed.

Lemma shown_in_full_value v1 v2 :
  shown_in_full v1 = shown_in_full v2 -> truthy v1 = true -> v1 = v2.
Proof.
  intros H H1. pose proof (shown_in_full_truthy _ _ H) as H2.
  unfold shown_in_full in H. rewrite <- H2, H1 in H. exact H.
Qed.

Lemma shown_in_full_prefix n v1 v2 :
  shown_in_full v1 = shown_in_full v2 -> shown_prefix n v1 = shown_prefix n v2.
Proof.
  intros H. pose proof (shown_in_full_truthy _ _ H) as Ht.
  destruct (truthy v1) eqn:H1.
  - now rewrite (shown_in_full_value _ _ H H1).
  - symmetry in Ht. unfold truthy, shown_prefix in *.
    destruct v1 as [k1|], v2 as [k2|];
      try destruct (String.eqb k1 ""); try destruct (String.eqb k2 "");
      try discriminate; reflexivity.
Qed.

(** The script when the guard of test 1 throws. *)
Lemma script_guard_throws w :
  truthy (SUPABASE_URL w) = false \/ truthy (SUPABASE_ANON_KEY w) = false ->
  script w =
    Log ("🧪 Starting Supabase Integration Tests..." +++ nl)
    :: Log "1️⃣  Testing client creation..."
    :: client_creation_failed missing_variables.
Proof.
  intros H. unfold script, test_client_creation.
  destruct (SUPABASE_URL w) as [url|], (SUPABASE_ANON_KEY w) as [key|];
    simpl in H; try reflexivity.
  destruct (String.eqb url ""), (String.eqb key ""); simpl in *;
    try reflexivity.
  destruct H; discriminate.
Qed.

(** X13. What a run reveals of the environment, for ASCII values of the
    printed variables: the output is the same for two environments that
    agree on the project URL, on the first 20 characters of the anon key,
    on the first 10 characters of the two Clerk keys, and on whether each
    optional variable is set - where a variable set to the empty string
    counts as unset, for every variable - provided the collaborators answer
    alike.  Nothing beyond these prefixes reaches the console.  The two
    first hypotheses keep the statement to the values on which the cuts of
    the model are those of the script. *)
Theorem script_shows_prefixes_only w1 w2 :
  printed_values_ascii w1 ->
  printed_values_ascii w2 ->
  shown_in_full (SUPABASE_URL w1) = shown_in_full (SUPABASE_URL w2) ->
  shown_prefix 20 (SUPABASE_ANON_KEY w1) = shown_prefix 20 (SUPABASE_ANON_KEY w2) ->
  shown_prefix 10 (process_env w1 "CLERK_SECRET_KEY")
    = shown_prefix 10 (process_env w2 "CLERK_SECRET_KEY") ->
  shown_prefix 10 (process_env w1 "NEXT_PUBLIC_CLERK_PUBLISHABLE_KEY")
    = shown_prefix 10 (process_env w2 "NEXT_PUBLIC_CLERK_PUBLISHABLE_KEY") ->
  (forall x, In x optionalEnvVars ->
             truthy (process_env w1 x) = truthy (process_env w2 x)) ->
  (truthy (SUPABASE_URL w1) = true ->
   truthy (SUPABASE_ANON_KEY w1) = true ->
   createClient w1 (SUPABASE_URL w1) (SUPABASE_ANON_KEY w1)
     = createClient w2 (SUPABASE_URL w2) (SUPABASE_ANON_KEY w2)) ->
  (forall table columns n,
     from_select_limit w1 table columns n = from_select_limit w2 table columns n) ->
  validation w1 = validation w2 ->
  script w1 = script w2.
Proof.
  intros _ _ Hu Hk Hcs Hcp Ho Hc Hq Hv.
  pose proof (shown_in_full_truthy _ _ Hu) as Htu.
  pose proof (shown_prefix_truthy _ _ _ Hk) as Htk.
  destruct (truthy (SUPABASE_URL w1)) eqn:Hu1;
    [destruct (truthy (SUPABASE_ANON_KEY w1)) eqn:Hk1|].
  2: { rewrite (script_guard_throws w1), (script_guard_throws w2); auto. }
  2: { rewrite (script_guard_throws w1), (script_guard_throws w2); auto. }
  specialize (Hc eq_refl eq_refl).
  assert (Hcheck : checkEnvironment w1 = checkEnvironment w2).
  { unfold checkEnvironment. simpl.
    rewrite !required_report_shown.
    change shown_of_required with (shown_prefix 10).
    fold (SUPABASE_URL w1) (SUPABASE_URL w2)
      (SUPABASE_ANON_KEY w1) (SUPABASE_ANON_KEY w2).
    rewrite (shown_in_full_prefix 10 _ _ Hu),
      (shown_prefix_nested 10 20 _ _ ltac:(lia) Hk), Hcs, Hcp.
    unfold optional_report.
    rewrite (Ho "SUPABASE_SERVICE_ROLE_KEY"), (Ho "STORAGE_SETUP_API_KEY")
      by (simpl; auto).
    reflexivity. }
  assert (Hval : testValidation w1 = testValidation w2).
  { unfold testValidation. now rewrite Hv. }
  assert (Hrep : forall t, table_report w1 t = table_report w2 t).
  { intros t. unfold table_report. now rewrite Hq. }
  assert (Htab : testTableStructures w1 = testTableStructures w2).
  { unfold testTableStructures. rewrite Hc.
    destruct (createClient w2 _ _); [reflexivity|].
    f_equal. apply flat_map_ext. intros t. now rewrite Hrep. }
  assert (Hcon : testConnection w1 = testConnection w2).
  { unfold testConnection. now rewrite Hc, Hq. }
  assert (Hrun : runTests w1 = runTests w2).
  { unfold runTests. now rewrite Hcon, Htab, Hval, Hcheck. }
  unfold script. rewrite Hrun. do 2 f_equal.
  unfold test_client_creation.
  rewrite (shown_in_full_value _ _ Hu Hu1) in *.
  destruct (SUPABASE_URL w2) as [url|]; [|reflexivity].
  unfold shown_prefix in Hk.
  destruct (SUPABASE_ANON_KEY w1) as [k1|], (SUPABASE_ANON_KEY w2) as [k2|];
    try discriminate.
  simpl in Hk1, Htk. symmetry in Htk.
  apply negb_true_iff in Hk1, Htk. rewrite Hk1, Htk in *.
  injection Hk as Hk. rewrite Hc, Hk. reflexivity.
Qed.

Lemma script_shows_prefixes_only_witness :
  script w_rls = script w_rls_unset_vs_empty
  /\ script w_unset_url = script w_empty_url.
Proof.
  split.
  - apply script_shows_prefixes_only; try reflexivity.
    + intros x value [<- | [<- | [<- | [<- | []]]]] H;
        vm_compute in H; try discriminate; injection H as <-; reflexivity.
    + intros x value [<- | [<- | [<- | [<- | []]]]] H;
        vm_compute in H; try discriminate; injection H as <-; reflexivity.
    + intros x [<- | [<- | []]]; reflexivity.
  - apply script_shows_prefixes_only; try reflexivity.
    + intros x value [<- | [<- | [<- | [<- | []]]]] H;
        vm_compute in H; try discriminate; injection H as <-; reflexivity.
    + intros x value [<- | [<- | [<- | [<- | []]]]] H;
        vm_compute in H; try discriminate; injection H as <-; reflexivity.
    + intros x [<- | [<- | []]]; reflexivity.
    + intros H. discriminate H.
Defined.
